(** * A shallow embedding of [src/lib/document.js]

    The file holds two versions of the [Document] class: the first one
    (lines 1-103, module [Simple] below) and the later one with access
    keys, notifications and the 404 mapping (lines 105-306, module
    [Hardened]).  Both run over the same world: the Metadata Store
    ([lib/files]), the local cache directory, the remote LinShare
    workgroup service, the key generator [uuid/v4] and the pub/sub bus.

    Every [await]ed call to a collaborator is an [external] call: it
    consumes one entry of an oracle that decides whether the call
    fails (as a rejected promise), applies its effect when it does not,
    and records the call in the world's log in the order it is issued. *)

From stdpp Require Import base gmap strings list pretty.

Open Scope string_scope.

(** ** Constants and collaborators' data *)

(** Modelled from the spec: [DOCUMENT_STATES] of [lib/constants] (not
    under src/); the states are [downloading], [downloaded], [removed]. *)
Inductive doc_state := downloading | downloaded | removed.

#[global] Instance doc_state_eq_dec : EqDecision doc_state.
Proof. solve_decision. Defined.

(** An error as the code inspects it: its message and
    [error.response.status] ([None] when there is no response). *)
Record error := mkError { err_message : string; err_status : option Z }.

(** [error.response && error.response.status && error.response.status === 404] *)
Definition is_404 (e : error) : bool :=
  match err_status e with Some s => Z.eqb s 404 | None => false end.

Definition document_not_found : error := mkError "Document not found" None.

(** The error the LinShare client rejects with on a missing node. *)
Definition http_404 : error :=
  mkError "Request failed with status code 404" (Some 404%Z).

(** A workgroup node as returned by [getNode], with the bytes
    [downloadDocument] returns for it.  Only [name] and [parent] are
    kept: the other fields of a LinShare node (its own [uuid],
    [workGroup], ...) are not modelled, so what [Object.assign] copies
    from them onto the object is outside this model. *)
Record node := mkNode { node_name : string; node_parent : string; node_data : string }.

Record user := mkUser { mail : string; firstName : string; lastName : string }.

(** The in-memory [this] of a [Document]: the constructor's fields and
    those the methods assign ([undefined] is [None]). *)
Record document := mkDocument {
  uuid : string;
  workGroup : string;
  doc_user : user;
  filePath : string;
  state : option doc_state;
  key : option string;
  name : option string;
  parent : option string;
  fileType : option string;
  documentType : option string;
  downloadUrlPath : option string;
  callbackUrlPath : option string
}.

Definition set_state (s : doc_state) (d : document) : document :=
  mkDocument (uuid d) (workGroup d) (doc_user d) (filePath d) (Some s) (key d)
    (name d) (parent d) (fileType d) (documentType d) (downloadUrlPath d) (callbackUrlPath d).

Definition set_key (k : string) (d : document) : document :=
  mkDocument (uuid d) (workGroup d) (doc_user d) (filePath d) (state d) (Some k)
    (name d) (parent d) (fileType d) (documentType d) (downloadUrlPath d) (callbackUrlPath d).

(** [path.join(__dirname, '../../files')] *)
Definition STORAGE_DIR : string := "files".

(** [path.join(STORAGE_DIR, uuid)]: the deterministic cache path. *)
Definition path_of (u : string) : string := STORAGE_DIR +:+ "/" +:+ u.

(** [new Document(documentUuid, workGroupUuid, user)] *)
Definition new_document (u wg : string) (usr : user) : document :=
  mkDocument u wg usr (path_of u) None None None None None None None None.

(** A record of the Metadata Store: the fields the code writes and
    reads back ([state], [key]). *)
Record file_record := mkRecord { r_state : option doc_state; r_key : option string }.

(** The fields passed to [Files.updateByUuid]. *)
Record patch := mkPatch { p_state : doc_state; p_key : option string }.

Definition apply_patch (r : file_record) (p : patch) : file_record :=
  mkRecord (Some (p_state p))
    (match p_key p with Some k => Some k | None => r_key r end).

(** What [Files.create(this)] stores of the object. *)
Definition record_of (d : document) : file_record := mkRecord (state d) (key d).

(** Calls to collaborators, as they are issued. *)
Inductive call :=
| GetNode (wg u : string)
| DownloadDocument (wg u : string)
| WriteFile (p : string)
| DeleteFile (p : string)
| DbGet (u : string)
| DbUpdate (u : string) (pa : patch)
| DbCreate (u : string) (r : file_record)
| DbRemove (u : string).

Inductive event :=
| Called (c : call) (ok : bool)
| PublishDownloaded (d : document)
| PublishDownloadFailed (d : document) (e : error).

(** The oracle's verdict on the next external call. *)
Inductive outcome := Ok | Fail (e : error).

Record world := mkWorld {
  w_db : gmap string file_record;
  w_fs : gmap string string;
  w_remote : gmap (string * string) node;
  w_seed : nat;
  w_oracle : list outcome;
  w_log : list event
}.

Definition set_db (db : gmap string file_record) (w : world) : world :=
  mkWorld db (w_fs w) (w_remote w) (w_seed w) (w_oracle w) (w_log w).
Definition set_fs (fs : gmap string string) (w : world) : world :=
  mkWorld (w_db w) fs (w_remote w) (w_seed w) (w_oracle w) (w_log w).
Definition set_seed (n : nat) (w : world) : world :=
  mkWorld (w_db w) (w_fs w) (w_remote w) n (w_oracle w) (w_log w).
Definition set_oracle (o : list outcome) (w : world) : world :=
  mkWorld (w_db w) (w_fs w) (w_remote w) (w_seed w) o (w_log w).
Definition log_event (ev : event) (w : world) : world :=
  mkWorld (w_db w) (w_fs w) (w_remote w) (w_seed w) (w_oracle w) (w_log w ++ [ev]).

(** ** The monad: [this] and the world threaded, errors as [inr] *)

Definition M (A : Type) : Type := document * world -> (A + error) * (document * world).

#[global] Instance M_ret : MRet M := fun A a s => (inl a, s).
#[global] Instance M_bind : MBind M := fun A B k m s =>
  match m s with
  | (inl a, s') => k a s'
  | (inr e, s') => (inr e, s')
  end.

Definition throw {A} (e : error) : M A := fun s => (inr e, s).

(** [try { m } catch (error) { h(error) }] *)
Definition catch {A} (m : M A) (h : error -> M A) : M A := fun s =>
  match m s with
  | (inl a, s') => (inl a, s')
  | (inr e, s') => h e s'
  end.

Definition get_this : M document := fun '(d, w) => (inl d, (d, w)).
Definition modify_this (f : document -> document) : M unit :=
  fun '(d, w) => (inl tt, (f d, w)).
Definition read_world {A} (f : world -> A) : M A := fun '(d, w) => (inl (f w), (d, w)).

Definition is_ok {A} (r : A + error) : bool := match r with inl _ => true | inr _ => false end.

(** An awaited call to a collaborator. *)
Definition external {A} (c : call) (eff : world -> (A + error) * world) : M A :=
  fun '(d, w) =>
    match w_oracle w with
    | Fail e :: rest => (inr e, (d, log_event (Called c false) (set_oracle rest w)))
    | o =>
        let '(r, w') := eff (set_oracle (tail o) w) in
        (r, (d, log_event (Called c (is_ok r)) w'))
    end.

(** [uuidV4()]: the key generator, drawn by index. *)
Class UuidGen := uuid_gen : nat -> string.

Definition uuidV4 `{UuidGen} : M string :=
  fun '(d, w) => (inl (uuid_gen (w_seed w)), (d, set_seed (S (w_seed w)) w)).

(** [pubsub.topic(...).publish(...)]: not awaited, it cannot reject. *)
Definition publish (ev : event) : M unit := fun '(d, w) => (inl tt, (d, log_event ev w)).

(** ** Collaborators *)

(** Modelled from the spec: [getFileExtension] of [lib/helpers] (not
    under src/), the file extension of a name: the text after its last
    dot. *)
Fixpoint ext_go (s acc : string) : string :=
  match s with
  | EmptyString => acc
  | String c s' => if Ascii.eqb c (Ascii.ascii_of_nat 46) then ext_go s' "" else ext_go s' (acc +:+ String c EmptyString)
  end.

Definition getFileExtension (n : string) : string := ext_go n "".

(** Modelled from the spec: [getFileType] of [lib/helpers] (not under
    src/), the document-type classification of a name by its extension. *)
Definition getFileType (n : string) : string :=
  let e := getFileExtension n in
  if bool_decide (e ∈ ["xlsx"; "xls"; "ods"; "csv"]) then "spreadsheet"
  else if bool_decide (e ∈ ["pptx"; "ppt"; "odp"]) then "presentation"
  else "text".

(** [existsSync(path)] *)
Definition existsSync (p : string) (w : world) : bool := bool_decide (is_Some (w_fs w !! p)).

(** [writeFile(path, data)] *)
Definition writeFile (p data : string) : M unit :=
  external (WriteFile p) (fun w => (inl tt, set_fs (<[p := data]> (w_fs w)) w)).

(** [deleteFile(path)] *)
Definition deleteFile (p : string) : M unit :=
  external (DeleteFile p) (fun w => (inl tt, set_fs (delete p (w_fs w)) w)).

(** The LinShare client's [user.workgroup] service. *)
Definition getNode (wg u : string) : M node :=
  external (GetNode wg u) (fun w =>
    match w_remote w !! (wg, u) with
    | Some n => (inl n, w)
    | None => (inr http_404, w)
    end).

Definition downloadDocument (wg u : string) : M string :=
  external (DownloadDocument wg u) (fun w =>
    match w_remote w !! (wg, u) with
    | Some n => (inl (node_data n), w)
    | None => (inr http_404, w)
    end).

(** Modelled from the spec: [lib/files] (not under src/), the Metadata
    Store keyed by document identifier.  [updateByUuid] mutates the
    given fields of an existing record in place and matches nothing
    when there is none; [create] stores the object's [state] and [key];
    [removeByUuid] deletes the record, as its name says. *)
Module Files.

Definition getByUuid (u : string) : M (option file_record) :=
  external (DbGet u) (fun w => (inl (w_db w !! u), w)).

Definition updateByUuid (u : string) (pa : patch) : M unit :=
  external (DbUpdate u pa) (fun w =>
    (inl tt, set_db (match w_db w !! u with
                     | Some r => <[u := apply_patch r pa]> (w_db w)
                     | None => w_db w
                     end) w)).

Definition create (d : document) : M unit :=
  external (DbCreate (uuid d) (record_of d)) (fun w =>
    (inl tt, set_db (<[uuid d := record_of d]> (w_db w)) w)).

Definition removeByUuid (u : string) : M unit :=
  external (DbRemove u) (fun w => (inl tt, set_db (delete u (w_db w)) w)).

End Files.

(** [isDownloaded()], the same in both versions. *)
Definition isDownloaded (d : document) (w : world) : bool :=
  existsSync (filePath d) w && bool_decide (state d = Some downloaded).

(** [Object.assign(this, document)] after [fileType], [documentType]
    and, when given, the two URL paths were set on [document]. *)
Definition assign_metadata (n : node) (urls : option (string * string)) (d : document) : document :=
  mkDocument (uuid d) (workGroup d) (doc_user d) (filePath d) (state d) (key d)
    (Some (node_name n)) (Some (node_parent n))
    (Some (getFileExtension (node_name n))) (Some (getFileType (node_name n)))
    (match urls with Some (p, _) => Some p | None => downloadUrlPath d end)
    (match urls with Some (_, c) => Some c | None => callbackUrlPath d end).

(** ** The document server payload *)

(** [config.get('documentServer.signature.browser')] *)
Record signature_config := mkSignature {
  enable : bool; secret : string; algorithm : string; expiresIn : string }.

Record config := mkConfig {
  webserver_baseUrl : string;
  signature_browser : signature_config }.

(** [`${x}`]: an undefined field prints as ["undefined"]. *)
Definition js_str (o : option string) : string :=
  match o with Some s => s | None => "undefined" end.

Record payload := mkPayload {
  document_fileType : option string;
  document_title : option string;
  document_url : string;
  document_key : option string;
  payload_documentType : option string;
  editor_user_id : string;
  editor_user_name : string;
  editor_callbackUrl : string;
  customization_forcesave : bool }.

(** [generateToken(payload, { key, algorithm, expiresIn })] of [./jwt]
    (not under src/), kept as the signed term. *)
Inductive token := generateToken (p : payload) (k alg exp : string).

(** The payload, with [token] when signing is enabled. *)
Record editor_payload := mkEditorPayload { ep_payload : payload; ep_token : option token }.

(** ** The first version (src lines 1-103) *)
Module Simple.

Definition populateMetadata : M unit :=
  d ← get_this;
  n ← getNode (workGroup d) (uuid d);
  modify_this (assign_metadata n None).

Definition setState (s : doc_state) : M unit :=
  modify_this (set_state s);;
  d ← get_this;
  r ← Files.getByUuid (uuid d);
  match r with
  | Some _ => Files.updateByUuid (uuid d) (mkPatch s None)
  | None => d' ← get_this; Files.create d'
  end.

Definition remove : M unit :=
  d ← get_this;
  Files.removeByUuid (uuid d);;
  deleteFile (filePath d).

(** [loadState()] *)
Definition loadState : M unit :=
  d ← get_this;
  r ← Files.getByUuid (uuid d);
  match r with
  | Some r => modify_this (fun d =>
      mkDocument (uuid d) (workGroup d) (doc_user d) (filePath d) (r_state r) (key d)
        (name d) (parent d) (fileType d) (documentType d) (downloadUrlPath d) (callbackUrlPath d))
  | None => mret tt
  end.

Definition save : M unit :=
  catch
    (setState downloading;;
     d ← get_this;
     data ← downloadDocument (workGroup d) (uuid d);
     writeFile (filePath d) data;;
     setState downloaded)
    (fun e => remove;; throw e).

End Simple.

(** ** The later version (src lines 105-306) *)
Module Hardened.
Section WithGen.
Context `{UuidGen}.

(** The [downloadUrlPath] and [callbackUrlPath] template strings. *)
Definition url_paths (d : document) : string * string :=
  ("/files/" +:+ uuid d,
   "/api/documents/track?workGroupUuid=" +:+ workGroup d +:+ "&documentUuid=" +:+ uuid d).

Definition populateMetadata : M unit :=
  d ← get_this;
  n ← catch (getNode (workGroup d) (uuid d))
            (fun e => if is_404 e then throw document_not_found else throw e);
  read_world (isDownloaded d) ≫= fun b : bool =>
  modify_this (assign_metadata n (if b then Some (url_paths d) else None)).

Definition load : M unit :=
  d ← get_this;
  r ← Files.getByUuid (uuid d);
  match r with
  | Some r => modify_this (fun d =>
      mkDocument (uuid d) (workGroup d) (doc_user d) (filePath d) (r_state r) (r_key r)
        (name d) (parent d) (fileType d) (documentType d) (downloadUrlPath d) (callbackUrlPath d))
  | None => mret tt
  end.

Definition setState (s : doc_state) : M unit :=
  modify_this (set_state s);;
  d ← get_this;
  r ← Files.getByUuid (uuid d);
  match r with
  | Some _ => Files.updateByUuid (uuid d) (mkPatch s None)
  | None =>
      k ← uuidV4;
      modify_this (set_key k);;
      d' ← get_this;
      Files.create d'
  end.

Definition remove : M unit :=
  d ← get_this;
  k ← uuidV4;
  Files.updateByUuid (uuid d) (mkPatch removed (Some k));;
  deleteFile (filePath d).

(** The body of the [try] block of [save]. *)
Definition save_try : M unit :=
  d ← get_this;
  data ← downloadDocument (workGroup d) (uuid d);
  writeFile (filePath d) data;;
  setState downloaded;;
  populateMetadata;;
  d' ← get_this;
  publish (PublishDownloaded d').

(** The [catch] block of [save]. *)
Definition save_catch (e : error) : M unit :=
  remove;;
  d ← get_this;
  publish (PublishDownloadFailed d e);;
  throw e.

Definition save : M unit := catch save_try save_catch.

Definition buildDocumentserverPayload (cfg : config) (d : document) : editor_payload :=
  let p := mkPayload (fileType d) (name d)
             (webserver_baseUrl cfg +:+ js_str (downloadUrlPath d))
             (key d) (documentType d)
             (mail (doc_user d)) (firstName (doc_user d) +:+ " " +:+ lastName (doc_user d))
             (webserver_baseUrl cfg +:+ js_str (callbackUrlPath d))
             true in
  let sg := signature_browser cfg in
  if negb (enable sg) then mkEditorPayload p None
  else mkEditorPayload p (Some (generateToken p (secret sg) (algorithm sg) (expiresIn sg))).

End WithGen.
End Hardened.

(** ** Sequences of method calls on the later version *)

Inductive hop := HSetState (s : doc_state) | HRemove | HSave | HLoad | HPopulate.

Definition run_hop `{UuidGen} (o : hop) : M unit :=
  match o with
  | HSetState s => Hardened.setState s
  | HRemove => Hardened.remove
  | HSave => Hardened.save
  | HLoad => Hardened.load
  | HPopulate => Hardened.populateMetadata
  end.

(** Each call runs on a [Document] object of its own (fresh from the
    constructor or kept from earlier calls); the world is shared. *)
Definition run_hops `{UuidGen} (ops : list (document * hop)) (w : world) : world :=
  fold_left (fun w '(d, o) => snd (snd (run_hop o (d, w)))) ops w.

(** The world before any call: empty store and cache, no key drawn. *)
Definition initial_world (remote : gmap (string * string) node) (o : list outcome) : world :=
  mkWorld ∅ ∅ remote 0 o [].

(** The key a successful store write puts into a record. *)
Definition written_key (ev : event) : option (string * string) :=
  match ev with
  | Called (DbUpdate u pa) true => (fun k => (u, k)) <$> p_key pa
  | Called (DbCreate u rc) true => (fun k => (u, k)) <$> r_key rc
  | _ => None
  end.

(** Keys written to the store are draws of the generator below [n]. *)
Definition keys_below `{UuidGen} (n : nat) (l : list event) : Prop :=
  Forall (fun ev => match written_key ev with
                    | Some (_, k) => exists i, i < n /\ k = uuid_gen i
                    | None => True
                    end) l.

(** The keys ever written for document [u], in the order of the log. *)
Definition keys_written (u : string) (l : list event) : list string :=
  omap (fun ev => match written_key ev with
                  | Some (u', k) => if decide (u' = u) then Some k else None
                  | None => None
                  end) l.

(** The verdict of the oracle on the next call is not a failure. *)
Definition next_call_ok (w : world) : Prop :=
  match w_oracle w with Fail _ :: _ => False | _ => True end.

(** The next two calls do not fail. *)
Definition next_two_calls_ok (w : world) : Prop :=
  match w_oracle w with
  | Fail _ :: _ => False
  | _ :: Fail _ :: _ => False
  | _ => True
  end.

(** A write of state [s] to the store. *)
Definition writes_state (s : doc_state) (ev : event) : bool :=
  match ev with
  | Called (DbUpdate _ pa) _ => bool_decide (p_state pa = s)
  | Called (DbCreate _ rc) _ => bool_decide (r_state rc = Some s)
  | _ => false
  end.

(** [denormalize()]: [{ ...this }] without [filePath]. *)
Record denormalized := mkDenormalized {
  dn_uuid : string;
  dn_workGroup : string;
  dn_user : user;
  dn_state : option doc_state;
  dn_key : option string;
  dn_name : option string;
  dn_parent : option string;
  dn_fileType : option string;
  dn_documentType : option string;
  dn_downloadUrlPath : option string;
  dn_callbackUrlPath : option string
}.

Definition denormalize (d : document) : denormalized :=
  mkDenormalized (uuid d) (workGroup d) (doc_user d) (state d) (key d) (name d) (parent d)
    (fileType d) (documentType d) (downloadUrlPath d) (callbackUrlPath d).

(** [isDownloading()] *)
Definition isDownloading (d : document) : bool := bool_decide (state d = Some downloading).

(** ** Runs on concrete inputs *)

(** A generator for runs: the [n]-th draw is ["key-"] followed by [n]. *)
Definition counter_uuid : UuidGen := fun n => "key-" +:+ pretty (N.of_nat n).

Definition alice : user := mkUser "alice@linshare.org" "Alice" "Doe".

Definition doc1 : document := new_document "doc-1" "wg-1" alice.

Definition world0 (o : list outcome) : world :=
  mkWorld ∅ ∅ {[ ("wg-1", "doc-1") := mkNode "report.docx" "folder-1" "BYTES" ]} 0 o [].

Definition boom : error := mkError "socket hang up" None.
Definition db_down : error := mkError "connection to the metadata store lost" None.

Definition world1 : world :=
  set_db {[ "doc-1" := mkRecord (Some downloaded) (Some "key-7") ]} (world0 []).

Definition cfg0 : config := mkConfig "https://office" (mkSignature true "s3cret" "HS256" "1h").

(** * Properties *)

(** Symbolic execution: reduce the monad and split on every scrutinee
    that is data (oracle entries, store lookups, tests), never on an
    unreduced computation. *)
Ltac split_data :=
  match goal with
  | |- context [match ?x with _ => _ end] =>
      lazymatch type of x with
      | ((_ + error) * _)%type => fail
      | _ => destruct x eqn:?
      end
  end.

Ltac run :=
  repeat (cbv beta iota zeta delta [mbind M_bind mret M_ret get_this modify_this read_world
               throw catch external uuidV4 publish set_db set_fs set_seed set_oracle
               log_event w_db w_fs w_remote w_seed w_oracle w_log tail
               uuid workGroup doc_user filePath state key set_state set_key
               Files.getByUuid Files.updateByUuid Files.create Files.removeByUuid
               writeFile deleteFile getNode downloadDocument] in *;
          try split_data; simplify_eq/=).

(** C10: [setState(s)] assigns [this.state = s] before any store call,
    in both versions; when a store call rejects, the object reports [s]
    while the store is left as it was. *)
Theorem setState_memory_before_store `{UuidGen} (s : doc_state) (d : document) (w : world) :
  (let '(r, (d', w')) := Hardened.setState s (d, w) in
   state d' = Some s /\ (is_ok r = false -> w_db w' = w_db w)) /\
  (let '(r, (d', w')) := Simple.setState s (d, w) in
   state d' = Some s /\ (is_ok r = false -> w_db w' = w_db w)).
Proof.
  unfold Hardened.setState, Simple.setState.
  split; run; split; try reflexivity; intros Hf; try discriminate; reflexivity.
Qed.

(** C5: for a document at its deterministic cache path, [isDownloaded]
    holds exactly when the cached file exists and the document's state
    is [downloaded]; neither fact alone makes it true. *)
Theorem isDownloaded_iff (d : document) (w : world) :
  filePath d = path_of (uuid d) ->
  isDownloaded d w = true <->
  is_Some (w_fs w !! path_of (uuid d)) /\ state d = Some downloaded.
Proof.
  intros Hp. unfold isDownloaded, existsSync. rewrite Hp.
  rewrite andb_true_iff, !bool_decide_eq_true. reflexivity.
Qed.

Lemma isDownloaded_iff_witness :
  filePath doc1 = path_of (uuid doc1) /\
  (isDownloaded doc1 (world0 []) = true <->
   is_Some (w_fs (world0 []) !! path_of (uuid doc1)) /\ state doc1 = Some downloaded).
Proof. split; [reflexivity | apply isDownloaded_iff; reflexivity]. Defined.

(** C1 (counterexample): a document whose state is [removed] still gets
    a payload carrying its key. *)
Lemma payload_of_removed_document_has_key :
  let d := set_key "key-0" (set_state removed doc1) in
  state d = Some removed /\
  document_key (ep_payload (Hardened.buildDocumentserverPayload cfg0 d)) = Some "key-0".
Proof. split; reflexivity. Qed.

(** C1 (amended): [buildDocumentserverPayload] never inspects the state:
    for every document it returns a payload whose [document.key] is the
    object's current key, signed when signing is enabled. *)
Theorem buildDocumentserverPayload_ignores_state (cfg : config) (d : document) :
  let ep := Hardened.buildDocumentserverPayload cfg d in
  document_key (ep_payload ep) = key d /\
  ep_token ep = (if enable (signature_browser cfg)
                 then Some (generateToken (ep_payload ep) (secret (signature_browser cfg))
                              (algorithm (signature_browser cfg))
                              (expiresIn (signature_browser cfg)))
                 else None).
Proof.
  unfold Hardened.buildDocumentserverPayload; cbn.
  destruct (enable (signature_browser cfg)); split; reflexivity.
Qed.

(** C8: when a record exists, [setState] changes only its [state] and
    leaves the stored key (and the object's key) as they were; when none
    exists, a successful [setState] draws a fresh key, sets it on the
    object and creates the record with it. *)
Theorem setState_keeps_existing_key `{UuidGen} (s : doc_state) (d : document) (w : world) :
  let '(r, (d', w')) := Hardened.setState s (d, w) in
  match w_db w !! uuid d with
  | Some rc =>
      key d' = key d /\
      exists rc', w_db w' !! uuid d = Some rc' /\ r_key rc' = r_key rc /\
                  (is_ok r = true -> rc' = mkRecord (Some s) (r_key rc))
  | None =>
      is_ok r = true ->
      key d' = Some (uuid_gen (w_seed w)) /\
      w_db w' !! uuid d = Some (mkRecord (Some s) (Some (uuid_gen (w_seed w))))
  end.
Proof.
  unfold Hardened.setState. run.
  all: unfold apply_patch, record_of in *; cbn in *; simplify_map_eq.
  all: try (intros Hf; discriminate).
  all: naive_solver.
Qed.

(** C3: [remove] issues the cache deletion only after the store write
    that sets [removed] and the new key has succeeded; when that write
    fails, no deletion is issued.  (The first version deletes the record,
    also before the file.) *)
Theorem remove_rotates_before_delete `{UuidGen} (d : document) (w : world) :
  (let '(_, (_, w')) := Hardened.remove (d, w) in
   let rot := Called (DbUpdate (uuid d) (mkPatch removed (Some (uuid_gen (w_seed w))))) in
   w_log w' = (w_log w ++ [rot false])%list \/
   exists ok, w_log w' = (w_log w ++ [rot true; Called (DeleteFile (filePath d)) ok])%list) /\
  (let '(_, (_, w')) := Simple.remove (d, w) in
   w_log w' = (w_log w ++ [Called (DbRemove (uuid d)) false])%list \/
   exists ok, w_log w' = (w_log w ++ [Called (DbRemove (uuid d)) true;
                                      Called (DeleteFile (filePath d)) ok])%list).
Proof.
  unfold Hardened.remove, Simple.remove. split; run.
  all: rewrite <- ?app_assoc; cbn.
  all: first [left; reflexivity | right; eexists; reflexivity].
Qed.

(** C9 (amended): in the later version a 404 from [getNode] becomes
    ['Document not found'] and every other error is rethrown as it is;
    the first version rethrows every error as it is, 404 included. *)
Theorem populateMetadata_error_mapping (d : document) (w : world) :
  match getNode (workGroup d) (uuid d) (d, w) with
  | (inr e, _) =>
      fst (Hardened.populateMetadata (d, w)) = inr (if is_404 e then document_not_found else e) /\
      fst (Simple.populateMetadata (d, w)) = inr e
  | (inl _, _) =>
      fst (Hardened.populateMetadata (d, w)) = inl tt /\
      fst (Simple.populateMetadata (d, w)) = inl tt
  end.
Proof.
  unfold Hardened.populateMetadata, Simple.populateMetadata. run.
  all: split; reflexivity.
Qed.

(** C9 (counterexample): the first version's [populateMetadata] rejects
    with the raw 404 error of the client. *)
Lemma simple_populateMetadata_raw_404 :
  fst (Simple.populateMetadata (new_document "doc-2" "wg-1" alice, world0 [])) = inr http_404 /\
  err_message http_404 <> err_message document_not_found.
Proof. split; [reflexivity | discriminate]. Qed.

(** C7 (counterexample): in a run of the later [save], the store write of
    [downloaded] comes before the metadata refresh ([getNode]). *)
Lemma hardened_save_marks_downloaded_before_refresh :
  w_log (snd (snd (Hardened.save (H:=counter_uuid) (doc1, world0 [])))) =
  [Called (DownloadDocument "wg-1" "doc-1") true;
   Called (WriteFile "files/doc-1") true;
   Called (DbGet "doc-1") true;
   Called (DbCreate "doc-1" (mkRecord (Some downloaded) (Some "key-0"))) true;
   Called (GetNode "wg-1" "doc-1") true;
   PublishDownloaded (fst (snd (Hardened.save (H:=counter_uuid) (doc1, world0 [])))) ].
Proof. vm_compute. reflexivity. Qed.

(** C7 (amended): the later [save] never writes state [downloading]; a
    successful run issues exactly: download, cache write, the store read
    and write of [downloaded], the metadata refresh, and last the
    success notification. *)
Theorem hardened_save_order `{UuidGen} (d : document) (w : world) :
  let '(r, (d', w')) := Hardened.save (d, w) in
  (exists evs, w_log w' = (w_log w ++ evs)%list /\
               Forall (fun ev => writes_state downloading ev = false) evs) /\
  (r = inl tt ->
   exists c, writes_state downloaded (Called c true) = true /\
   w_log w' = (w_log w ++
     [Called (DownloadDocument (workGroup d) (uuid d)) true;
      Called (WriteFile (filePath d)) true;
      Called (DbGet (uuid d)) true;
      Called c true;
      Called (GetNode (workGroup d) (uuid d)) true;
      PublishDownloaded d'])%list).
Proof.
  unfold Hardened.save, Hardened.save_try, Hardened.save_catch, Hardened.setState,
    Hardened.populateMetadata, Hardened.remove.
  run.
  all: rewrite <- ?app_assoc; cbn [app].
  all: split.
  all: first [ solve [eexists; split; [reflexivity | repeat constructor]]
             | solve [intros Hr; discriminate]
             | solve [intros Hr; eexists; split; [idtac | reflexivity]; reflexivity] ].
Qed.

Lemma save_try_keeps_ids `{UuidGen} (d : document) (w : world) :
  let '(_, (d1, _)) := Hardened.save_try (d, w) in
  uuid d1 = uuid d /\ filePath d1 = filePath d.
Proof.
  unfold Hardened.save_try, Hardened.setState, Hardened.populateMetadata.
  run. all: split; reflexivity.
Qed.

Lemma save_catch_rolls_back `{UuidGen} (d1 : document) (w1 : world) (e : error) :
  next_two_calls_ok w1 ->
  let '(r, (d2, w2)) := Hardened.save_catch e (d1, w1) in
  r = inr e /\
  w_db w2 !! uuid d1 =
    (fun _ => mkRecord (Some removed) (Some (uuid_gen (w_seed w1)))) <$> w_db w1 !! uuid d1 /\
  w_fs w2 !! filePath d1 = None /\
  exists pre, w_log w2 = (pre ++ [PublishDownloadFailed d2 e])%list.
Proof.
  unfold next_two_calls_ok, Hardened.save_catch, Hardened.remove. intros Hok.
  run.
  all: try contradiction.
  all: unfold apply_patch; cbn.
  all: split; [reflexivity |].
  all: split; [simplify_map_eq; first [reflexivity | assumption] |].
  all: split; [apply lookup_delete_eq |].
  all: eexists; reflexivity.
Qed.

(** C4: the rollback of the later [save] in the case its [catch] block
    handles: when the [try] block fails with [e] and both rollback calls
    succeed, [save] rejects with [e] itself,
    a record held for the id is set to [removed] with the generator's
    next key, no file remains at the cache path, and the last event is
    the failure notification carrying the document and [e]. *)
Theorem hardened_save_rollback `{UuidGen} (d d1 : document) (w w1 : world) (e : error) :
  Hardened.save_try (d, w) = (inr e, (d1, w1)) ->
  next_two_calls_ok w1 ->
  let '(r, (d2, w2)) := Hardened.save (d, w) in
  r = inr e /\
  w_db w2 !! uuid d =
    (fun _ => mkRecord (Some removed) (Some (uuid_gen (w_seed w1)))) <$> w_db w1 !! uuid d /\
  w_fs w2 !! filePath d = None /\
  exists pre, w_log w2 = (pre ++ [PublishDownloadFailed d2 e])%list.
Proof.
  intros Hs Hok.
  pose proof (save_try_keeps_ids d w) as Hid. rewrite Hs in Hid. destruct Hid as [Hu Hf].
  pose proof (save_catch_rolls_back d1 w1 e Hok) as Hc.
  unfold Hardened.save, catch. rewrite Hs, <- Hu, <- Hf.
  exact Hc.
Qed.

Lemma hardened_save_rollback_witness :
  let X := Hardened.save_try (H:=counter_uuid) (doc1, (set_oracle [Fail boom] world1)) in
  X = (inr boom, (fst (snd X), snd (snd X))) /\
  next_two_calls_ok (snd (snd X)) /\
  (let '(r, (d2, w2)) := Hardened.save (H:=counter_uuid) (doc1, (set_oracle [Fail boom] world1)) in
   r = inr boom /\
   w_db w2 !! uuid doc1 =
     (fun _ => mkRecord (Some removed) (Some (counter_uuid (w_seed (snd (snd X))))))
       <$> w_db (snd (snd X)) !! uuid doc1 /\
   w_fs w2 !! filePath doc1 = None /\
   exists pre, w_log w2 = (pre ++ [PublishDownloadFailed d2 boom])%list).
Proof.
  cbv zeta. split; [vm_compute; reflexivity |]. split; [vm_compute; exact I |].
  apply (hardened_save_rollback (H:=counter_uuid) doc1
           (fst (snd (Hardened.save_try (H:=counter_uuid) (doc1, (set_oracle [Fail boom] world1)))))
           ((set_oracle [Fail boom] world1))
           (snd (snd (Hardened.save_try (H:=counter_uuid) (doc1, (set_oracle [Fail boom] world1)))))
           boom); vm_compute; [reflexivity | exact I].
Defined.

(** C4 (failing input): the download fails with [boom] and then a
    rollback call fails with [db_down].  When the store write fails,
    [save] rejects with [db_down] instead of [boom], publishes no failure
    notification and leaves the record [downloaded] with its old key;
    when the file deletion fails, it rejects with [db_down] and publishes
    no notification either. *)
Lemma save_rollback_failure_loses_error :
  let r := Hardened.save (H:=counter_uuid) (doc1, (set_oracle [Fail boom; Fail db_down] world1)) in
  let r' := Hardened.save (H:=counter_uuid) (doc1, (set_oracle [Fail boom; Ok; Fail db_down] world1)) in
  (fst r = inr db_down /\
   w_log (snd (snd r)) =
     [Called (DownloadDocument "wg-1" "doc-1") false;
      Called (DbUpdate "doc-1" (mkPatch removed (Some "key-0"))) false] /\
   w_db (snd (snd r)) !! "doc-1" = Some (mkRecord (Some downloaded) (Some "key-7"))) /\
  (fst r' = inr db_down /\
   w_log (snd (snd r')) =
     [Called (DownloadDocument "wg-1" "doc-1") false;
      Called (DbUpdate "doc-1" (mkPatch removed (Some "key-0"))) true;
      Called (DeleteFile (filePath doc1)) false]).
Proof. vm_compute. repeat split. Qed.

Lemma run_hop_keeps_record `{UuidGen} (o : hop) (d : document) (w : world) (u : string) :
  is_Some (w_db w !! u) ->
  let '(_, (_, w')) := run_hop o (d, w) in is_Some (w_db w' !! u).
Proof.
  destruct w as [db fs rem seed orc log]; cbn [w_db]; intros Hu.
  destruct o; unfold run_hop, Hardened.save, Hardened.save_try, Hardened.save_catch,
    Hardened.setState, Hardened.populateMetadata, Hardened.remove, Hardened.load;
    run.
  all: rewrite ?lookup_insert_is_Some'; tauto.
Qed.


(** C6 (amended): no sequence of the later version's methods, under any
    failures, deletes a metadata record. *)
Theorem hardened_ops_never_delete_records `{UuidGen} (ops : list (document * hop))
    (w : world) (u : string) :
  is_Some (w_db w !! u) -> is_Some (w_db (run_hops ops w) !! u).
Proof.
  unfold run_hops. revert w.
  induction ops as [|[d o] ops IH]; intros w Hu; cbn.
  - exact Hu.
  - apply IH. pose proof (run_hop_keeps_record o d w u Hu) as Hk.
    destruct (run_hop o (d, w)) as [? [? ?]]. exact Hk.
Qed.

Lemma hardened_ops_never_delete_records_witness :
  is_Some (w_db world1 !! "doc-1") /\
  is_Some (w_db (run_hops (H:=counter_uuid) [(doc1, HRemove); (doc1, HSave)] world1) !! "doc-1").
Proof.
  split; [vm_compute; eexists; reflexivity |].
  apply (hardened_ops_never_delete_records (H:=counter_uuid)).
  vm_compute; eexists; reflexivity.
Defined.

(** C6 (counterexample): the first version's [remove] deletes the
    record through [Files.removeByUuid]. *)
Lemma simple_remove_deletes_record :
  is_Some (w_db world1 !! "doc-1") /\
  w_db (snd (snd (Simple.remove (doc1, world1)))) !! "doc-1" = None.
Proof. split; [eexists; reflexivity | vm_compute; reflexivity]. Qed.

Section KeyFreshness.
Context `{UuidGen}.

Lemma keys_below_mono (n m : nat) (l : list event) :
  n <= m -> keys_below n l -> keys_below m l.
Proof.
  intros Hnm Hl. eapply Forall_impl; [exact Hl |]. intros ev. cbv beta.
  destruct (written_key ev) as [[u k]|]; [|done].
  intros [i [Hi Hk]]. exists i. split; [lia | exact Hk].
Qed.

Lemma keys_written_below (n : nat) (u k : string) (l : list event) :
  keys_below n l -> k ∈ keys_written u l -> exists i, i < n /\ k = uuid_gen i.
Proof.
  unfold keys_below, keys_written. induction l as [|ev l IH]; intros Hl Hk; cbn in Hk.
  - inversion Hk.
  - inversion Hl as [|? ? Hev Hrest]; subst.
    destruct (written_key ev) as [[u' k']|] eqn:Hw.
    + destruct (decide (u' = u)).
      * apply elem_of_cons in Hk as [-> | Hk]; [exact Hev | exact (IH Hrest Hk)].
      * exact (IH Hrest Hk).
    + exact (IH Hrest Hk).
Qed.

Ltac new_keys :=
  repeat match goal with
  | |- Forall _ [] => constructor
  | |- Forall _ (_ :: _) =>
      constructor;
      [cbn; first [exact I | eexists; split; [idtac | reflexivity]; lia] | idtac]
  end.

Lemma run_hop_keys_below (o : hop) (d : document) (w : world) :
  keys_below (w_seed w) (w_log w) ->
  let '(_, (_, w')) := run_hop o (d, w) in
  keys_below (w_seed w') (w_log w') /\ w_seed w <= w_seed w'.
Proof.
  destruct w as [db fs rem seed orc log]; cbn [w_seed w_log]; intros Hk.
  destruct o; unfold run_hop, Hardened.save, Hardened.save_try, Hardened.save_catch,
    Hardened.setState, Hardened.populateMetadata, Hardened.remove, Hardened.load;
    run.
  all: unfold keys_below in *; rewrite <- ?app_assoc; cbn [app].
  all: split; [apply Forall_app; split;
               [eapply keys_below_mono; [|exact Hk]; lia | new_keys] | lia].
Qed.

Lemma run_hops_keys_below (ops : list (document * hop)) (w : world) :
  keys_below (w_seed w) (w_log w) ->
  keys_below (w_seed (run_hops ops w)) (w_log (run_hops ops w)).
Proof.
  unfold run_hops. revert w.
  induction ops as [|[d o] ops IH]; intros w Hk; cbn; [exact Hk |].
  apply IH. pose proof (run_hop_keys_below o d w Hk) as Hs.
  destruct (run_hop o (d, w)) as [? [? ?]]. apply Hs.
Qed.

Lemma remove_writes_fresh_key (Hinj : Inj (=) (=) uuid_gen) (d : document) (w : world) :
  keys_below (w_seed w) (w_log w) ->
  next_call_ok w ->
  let '(_, (_, w')) := Hardened.remove (d, w) in
  forall rc, w_db w' !! uuid d = Some rc ->
  r_state rc = Some removed /\
  exists k, r_key rc = Some k /\ k ∉ keys_written (uuid d) (w_log w).
Proof.
  destruct w as [db fs rem seed orc log]; cbn [w_seed w_log]; unfold next_call_ok;
    intros Hk Hok.
  unfold Hardened.remove. run.
  all: try contradiction.
  all: intros rc Hrc; simplify_map_eq; unfold apply_patch; cbn.
  all: split; [reflexivity |]; eexists; split; [reflexivity |].
  all: intros Hin; destruct (keys_written_below _ _ _ _ Hk Hin) as [i [Hi Heq]].
  all: apply Hinj in Heq; lia.
Qed.

End KeyFreshness.

(** C2: with an injective key generator, after any sequence of the later
    version's methods from an empty store, a successful [remove] leaves
    the record (if any) in state [removed] with a key that differs from
    every key ever written for that identifier before. *)
Theorem remove_rotates_to_fresh_key `{UuidGen} (Hinj : Inj (=) (=) uuid_gen)
    (remote : gmap (string * string) node) (orc : list outcome)
    (ops : list (document * hop)) (d : document) :
  next_call_ok (run_hops ops (initial_world remote orc)) ->
  let w := run_hops ops (initial_world remote orc) in
  let '(_, (_, w')) := Hardened.remove (d, w) in
  forall rc, w_db w' !! uuid d = Some rc ->
  r_state rc = Some removed /\
  exists k, r_key rc = Some k /\ k ∉ keys_written (uuid d) (w_log w).
Proof.
  intros Hok w.
  apply remove_writes_fresh_key; [exact Hinj | | exact Hok].
  apply run_hops_keys_below. constructor.
Qed.

Lemma counter_uuid_inj : Inj (=) (=) (@uuid_gen counter_uuid).
Proof.
  intros n m Heq. unfold uuid_gen, counter_uuid in Heq.
  apply (inj (String.append "key-")) in Heq.
  apply (inj pretty) in Heq. lia.
Qed.

Lemma remove_rotates_to_fresh_key_witness :
  let ops := [(doc1, HSave); (doc1, HRemove); (doc1, HSave)] in
  let remote := w_remote (world0 []) in
  next_call_ok (run_hops (H:=counter_uuid) ops (initial_world remote [])) /\
  (let w := run_hops (H:=counter_uuid) ops (initial_world remote []) in
   let '(_, (_, w')) := Hardened.remove (H:=counter_uuid) (doc1, w) in
   forall rc, w_db w' !! uuid doc1 = Some rc ->
   r_state rc = Some removed /\
   exists k, r_key rc = Some k /\ k ∉ keys_written (uuid doc1) (w_log w)).
Proof.
  split; [vm_compute; exact I |].
  apply (remove_rotates_to_fresh_key (H:=counter_uuid) counter_uuid_inj).
  vm_compute; exact I.
Defined.

(** * Further properties of the code *)

(** After a successful [setState(s)], a fresh object for the same id
    [load]s state [s] and the key the store holds: the old one when the
    record existed, the one [setState] drew otherwise. *)
Theorem setState_then_load `{UuidGen} (s : doc_state) (d : document) (w : world)
    (wg : string) (usr : user) :
  let '(r1, (d1, w1)) := Hardened.setState s (d, w) in
  let '(r2, (e2, _)) := Hardened.load (new_document (uuid d) wg usr, w1) in
  r1 = inl tt -> r2 = inl tt ->
  state e2 = Some s /\
  key e2 = match w_db w !! uuid d with
           | Some rc => r_key rc
           | None => key d1
           end.
Proof.
  unfold Hardened.setState, Hardened.load, new_document. run.
  all: intros; unfold apply_patch, record_of in *; cbn in *; simplify_map_eq.
  all: split; reflexivity.
Qed.

(** After a successful [remove()], a fresh object for the same id [load]s
    state [removed] and the newly drawn key when the record existed; when
    there was no record, [load] finds none and leaves the object as built. *)
Theorem remove_then_load `{UuidGen} (d : document) (w : world) (wg : string) (usr : user) :
  let '(r1, (_, w1)) := Hardened.remove (d, w) in
  let '(r2, (e2, _)) := Hardened.load (new_document (uuid d) wg usr, w1) in
  r1 = inl tt -> r2 = inl tt ->
  match w_db w !! uuid d with
  | Some _ => state e2 = Some removed /\ key e2 = Some (uuid_gen (w_seed w))
  | None => e2 = new_document (uuid d) wg usr
  end.
Proof.
  unfold Hardened.remove, Hardened.load, new_document. run.
  all: intros; unfold apply_patch in *; cbn in *; simplify_map_eq.
  all: first [split; reflexivity | reflexivity].
Qed.


(** A successful [save()] of the later version leaves the document usable:
    the node's bytes are at the cache path, [isDownloaded] holds, the two
    URL paths point at [/files/<uuid>] and the track callback, and the
    payload's [document.url] is the web server's base URL followed by
    [/files/<uuid>]. *)
Theorem save_success_is_downloaded `{UuidGen} (d : document) (w : world) :
  let '(r, (d', w')) := Hardened.save (d, w) in
  r = inl tt ->
  (exists n, w_remote w !! (workGroup d, uuid d) = Some n /\
             w_fs w' !! filePath d = Some (node_data n)) /\
  isDownloaded d' w' = true /\
  downloadUrlPath d' = Some ("/files/" +:+ uuid d) /\
  callbackUrlPath d' = Some ("/api/documents/track?workGroupUuid=" +:+ workGroup d
                             +:+ "&documentUuid=" +:+ uuid d) /\
  forall cfg, document_url (ep_payload (Hardened.buildDocumentserverPayload cfg d')) =
              webserver_baseUrl cfg +:+ ("/files/" +:+ uuid d).
Proof.
  unfold Hardened.save, Hardened.save_try, Hardened.save_catch, Hardened.setState,
    Hardened.populateMetadata, Hardened.remove.
  run.
  all: intros Hr; try discriminate.
  all: try match goal with
       | Hb : isDownloaded _ _ = false |- _ =>
           exfalso; unfold isDownloaded, existsSync in Hb; cbn in Hb;
           rewrite lookup_insert_eq in Hb; cbn in Hb; discriminate
       end.
  all: cbn; split; [eexists; split; [reflexivity | by simplify_map_eq] |].
  all: unfold isDownloaded, existsSync; cbn; simplify_map_eq.
  all: repeat split.
  all: intros cfg; unfold Hardened.buildDocumentserverPayload; cbn;
    destruct (negb _); reflexivity.
Qed.

Lemma save_success_is_downloaded_witness :
  let '(r, (d', w')) := Hardened.save (H:=counter_uuid) (doc1, world0 []) in
  r = inl tt /\ isDownloaded d' w' = true /\ downloadUrlPath d' = Some "/files/doc-1".
Proof.
  pose proof (save_success_is_downloaded (H:=counter_uuid) doc1 (world0 [])) as Hc.
  destruct (Hardened.save _) as [r [d' w']] eqn:E.
  assert (Hr : r = inl tt) by (vm_compute in E; congruence).
  destruct (Hc Hr) as (_ & Hd & Hu & _).
  split; [exact Hr | split; [exact Hd | exact Hu]].
Defined.

(** A successful [save()] of the later version stores state [downloaded]:
    when a record existed it keeps its key (and the object its own key);
    otherwise the record is created with a newly drawn key, which the
    object holds too. *)
Theorem save_success_record `{UuidGen} (d : document) (w : world) :
  let '(r, (d', w')) := Hardened.save (d, w) in
  r = inl tt ->
  match w_db w !! uuid d with
  | Some rc =>
      w_db w' !! uuid d = Some (mkRecord (Some downloaded) (r_key rc)) /\ key d' = key d
  | None =>
      key d' = Some (uuid_gen (w_seed w)) /\
      w_db w' !! uuid d = Some (mkRecord (Some downloaded) (key d'))
  end.
Proof.
  unfold Hardened.save, Hardened.save_try, Hardened.save_catch, Hardened.setState,
    Hardened.populateMetadata, Hardened.remove.
  run.
  all: intros Hr; try discriminate.
  all: unfold apply_patch, record_of; cbn; simplify_map_eq.
  all: split; reflexivity.
Qed.

Lemma save_success_record_witness :
  let '(r, (d', w')) := Hardened.save (H:=counter_uuid) (doc1, world0 []) in
  r = inl tt /\ key d' = Some "key-0" /\
  w_db w' !! "doc-1" = Some (mkRecord (Some downloaded) (Some "key-0")).
Proof.
  pose proof (save_success_record (H:=counter_uuid) doc1 (world0 [])) as Hc.
  destruct (Hardened.save _) as [r [d' w']] eqn:E.
  assert (Hr : r = inl tt) by (vm_compute in E; congruence).
  destruct (Hc Hr) as [Hk Hdb].
  split; [exact Hr | split; [exact Hk |]].
  change "doc-1" with (uuid doc1). rewrite Hdb, Hk. reflexivity.
Defined.

(** [populateMetadata()] of the later version, when it succeeds, merges
    the node into the object: the name comes from the node, state and
    key are kept, and the two URL paths are set only when the document
    was downloaded, otherwise they keep their previous values.  The
    store and the cache are left as they were. *)
Theorem populateMetadata_merges_node (d : document) (w : world) :
  let '(r, (d', w')) := Hardened.populateMetadata (d, w) in
  r = inl tt ->
  exists n, w_remote w !! (workGroup d, uuid d) = Some n /\
    name d' = Some (node_name n) /\ state d' = state d /\ key d' = key d /\
    (if isDownloaded d w
     then downloadUrlPath d' = Some (Hardened.url_paths d).1 /\
          callbackUrlPath d' = Some (Hardened.url_paths d).2
     else downloadUrlPath d' = downloadUrlPath d /\
          callbackUrlPath d' = callbackUrlPath d) /\
    w_db w' = w_db w /\ w_fs w' = w_fs w.
Proof.
  destruct d, w as [db fs rem seed orc log].
  unfold Hardened.populateMetadata. run.
  all: intros Hr; try discriminate.
  all: eexists; split; [reflexivity |].
  all: unfold isDownloaded, existsSync in *; cbn [w_fs] in *.
  all: repeat match goal with
       | Hb : ?x = true |- _ => rewrite Hb in *; clear Hb
       | Hb : ?x = false |- _ => rewrite Hb in *; clear Hb
       end.
  all: unfold Hardened.url_paths in *; simplify_eq/=; repeat split.
Qed.

Lemma populateMetadata_merges_node_witness :
  let '(r, (d', _)) := Hardened.populateMetadata (doc1, world1) in
  r = inl tt /\ name d' = Some "report.docx" /\ downloadUrlPath d' = None.
Proof.
  pose proof (populateMetadata_merges_node doc1 world1) as Hc.
  destruct (Hardened.populateMetadata _) as [r [d' w']] eqn:E.
  assert (Hr : r = inl tt) by (vm_compute in E; congruence).
  destruct (Hc Hr) as (n & Hn & Hname & _ & _ & Hurl & _).
  vm_compute in Hn; injection Hn as <-.
  vm_compute in Hurl. destruct Hurl as [Hurl _].
  split; [exact Hr | split; [exact Hname | exact Hurl]].
Defined.

(** The reading methods ([populateMetadata] and [load] of the later
    version, [populateMetadata] and [loadState] of the first one) never
    write to the store or the cache and draw no key, whatever the calls
    return. *)
Theorem reading_methods_write_nothing (d : document) (w : world) :
  Forall (fun m : M unit => let '(_, (_, w')) := m (d, w) in
            w_db w' = w_db w /\ w_fs w' = w_fs w /\ w_seed w' = w_seed w)
    [Hardened.populateMetadata; Hardened.load; Simple.populateMetadata; Simple.loadState].
Proof.
  destruct w as [db fs rem seed orc log].
  repeat constructor.
  all: unfold Hardened.populateMetadata, Hardened.load, Simple.populateMetadata,
         Simple.loadState; run.
  all: repeat split.
Qed.

(** [setState(state)] of the first version, when it succeeds, sets the
    object's state and leaves a record with that state: the record's
    key is kept when it existed, otherwise the record is created from
    the object and carries the object's key. *)
Theorem simple_setState_record (s : doc_state) (d : document) (w : world) :
  let '(r, (d', w')) := Simple.setState s (d, w) in
  r = inl tt ->
  d' = set_state s d /\
  w_db w' !! uuid d = Some (mkRecord (Some s)
                              (match w_db w !! uuid d with
                               | Some rc => r_key rc
                               | None => key d
                               end)).
Proof.
  destruct d, w as [db fs rem seed orc log].
  unfold Simple.setState. run.
  all: intros Hr; try discriminate.
  all: split; [reflexivity |].
  all: rewrite ?Heqo; cbn; simplify_map_eq; reflexivity.
Qed.

Lemma simple_setState_record_witness :
  let '(r, (_, w')) := Simple.setState removed (doc1, world1) in
  r = inl tt /\ w_db w' !! "doc-1" = Some (mkRecord (Some removed) (Some "key-7")).
Proof.
  pose proof (simple_setState_record removed doc1 world1) as Hc.
  destruct (Simple.setState _ _) as [r [d' w']] eqn:E.
  assert (Hr : r = inl tt) by (vm_compute in E; congruence).
  split; [exact Hr | apply (Hc Hr)].
Defined.

(** [save()] of the first version, when it succeeds, leaves the object
    in state [downloaded] with its key, the document downloaded, and a
    record in state [downloaded] whose key is the old record's, or the
    object's when there was none. *)
Theorem simple_save_success (d : document) (w : world) :
  let '(r, (d', w')) := Simple.save (d, w) in
  r = inl tt ->
  state d' = Some downloaded /\ key d' = key d /\ isDownloaded d' w' = true /\
  w_db w' !! uuid d = Some (mkRecord (Some downloaded)
                              (match w_db w !! uuid d with
                               | Some rc => r_key rc
                               | None => key d
                               end)).
Proof.
  destruct d, w as [db fs rem seed orc log].
  unfold Simple.save, Simple.setState, Simple.remove. run.
  all: intros Hr; try discriminate.
  all: unfold isDownloaded, existsSync; cbn; simplify_map_eq.
  all: repeat split.
Qed.

Lemma simple_save_success_witness :
  let '(r, (d', w')) := Simple.save (doc1, world0 []) in
  r = inl tt /\ isDownloaded d' w' = true.
Proof.
  pose proof (simple_save_success doc1 (world0 [])) as Hc.
  destruct (Simple.save _) as [r [d' w']] eqn:E.
  assert (Hr : r = inl tt) by (vm_compute in E; congruence).
  split; [exact Hr | apply (Hc Hr)].
Defined.

(** When [save()] of the first version fails, the record and the cached
    file are both gone, unless the clean-up itself failed: then the last
    call of the run is the failed removal of the record or of the file,
    and the error thrown is the verdict on that last call, not the
    error that started the clean-up. *)
Theorem simple_save_failure_cleans_up (d : document) (w : world) (e : error) :
  let '(r, (d', w')) := Simple.save (d, w) in
  r = inr e ->
  exists l, w_log w' = (w_log w ++ l)%list /\
  ((w_db w' !! uuid d = None /\ w_fs w' !! filePath d = None) \/
   ((last l = Some (Called (DbRemove (uuid d)) false) \/
     last l = Some (Called (DeleteFile (filePath d)) false)) /\
    w_oracle w !! (length l - 1) = Some (Fail e))).
Proof.
  destruct d, w as [db fs rem seed orc log].
  unfold Simple.save, Simple.setState, Simple.remove. run.
  all: intros Hr; simplify_eq.
  all: eexists; split; [rewrite <- ?app_assoc; reflexivity |].
  all: first [ left; cbn; simplify_map_eq; split; reflexivity
             | right; cbn; split; [first [left; reflexivity | right; reflexivity] | reflexivity] ].
Qed.

Lemma simple_save_failure_cleans_up_witness :
  let '(r, (_, w')) := Simple.save (doc1, world0 [Ok; Ok; Fail boom; Ok; Fail db_down]) in
  r = inr db_down /\
  exists l, w_log w' = l /\
  ((w_db w' !! "doc-1" = None /\ w_fs w' !! filePath doc1 = None) \/
   ((last l = Some (Called (DbRemove "doc-1") false) \/
     last l = Some (Called (DeleteFile (filePath doc1)) false)) /\
    [Ok; Ok; Fail boom; Ok; Fail db_down] !! (length l - 1) = Some (Fail db_down))).
Proof.
  pose proof (simple_save_failure_cleans_up doc1 (world0 [Ok; Ok; Fail boom; Ok; Fail db_down]) db_down) as Hc.
  destruct (Simple.save _) as [r [d' w']] eqn:E.
  assert (Hr : r = inr db_down) by (vm_compute in E; injection E; intros; subst; reflexivity).
  split; [exact Hr |].
  destruct (Hc Hr) as [l [Hl H']]. exists l. split; [exact Hl | exact H'].
Defined.

(** [save()] of the first version writes state [downloading] to the
    store before it downloads: whenever the download is attempted, the
    run's calls begin with the lookup of the record and a successful
    write of [downloading], then the download. *)
Theorem simple_save_downloading_first (d : document) (w : world) :
  let '(_, (_, w')) := Simple.save (d, w) in
  exists l, w_log w' = (w_log w ++ l)%list /\
    forall wg u b, Called (DownloadDocument wg u) b ∈ l ->
      exists c rest, l = Called (DbGet (uuid d)) true :: Called c true
                         :: Called (DownloadDocument wg u) b :: rest /\
                     writes_state downloading (Called c true) = true.
Proof.
  destruct d, w as [db fs rem seed orc log].
  unfold Simple.save, Simple.setState, Simple.remove. run.
  all: eexists; split; [rewrite <- ?app_assoc; reflexivity |].
  all: intros wg' u' b' Hin; cbn in Hin.
  all: repeat (rewrite elem_of_cons in Hin; destruct Hin as [Hin|Hin]; [try discriminate|]).
  all: try (apply elem_of_nil in Hin; contradiction).
  all: injection Hin; intros; subst; do 2 eexists; split; reflexivity.
Qed.

(** After a successful [remove()] of the first version, [loadState()]
    on any object for the same document finds no record and leaves the
    object as it is. *)
Theorem simple_remove_then_loadState (d e : document) (w : world) :
  let '(r, (_, w1)) := Simple.remove (d, w) in
  r = inl tt -> uuid e = uuid d ->
  let '(_, (e', _)) := Simple.loadState (e, w1) in e' = e.
Proof.
  destruct d, e, w as [db fs rem seed orc log].
  unfold Simple.remove, Simple.loadState. run.
  all: intros Hr Hu; try discriminate; subst.
  all: run; try reflexivity.
  all: simplify_map_eq.
Qed.

Lemma simple_remove_then_loadState_witness :
  let '(r, (_, w1)) := Simple.remove (doc1, world1) in
  r = inl tt /\ fst (snd (Simple.loadState (doc1, w1))) = doc1.
Proof.
  pose proof (simple_remove_then_loadState doc1 doc1 world1) as Hc.
  destruct (Simple.remove _) as [r [d' w1]] eqn:E.
  assert (Hr : r = inl tt) by (vm_compute in E; congruence).
  split; [exact Hr |].
  specialize (Hc Hr eq_refl).
  destruct (Simple.loadState _) as [r2 [e' w2]]. exact Hc.
Defined.

(** When [save()] of the later version fails, the document is not left
    looking downloaded, unless the clean-up [remove()] itself failed:
    then the last call in the log is its failed store update or its
    failed file deletion. *)
Theorem save_failure_not_downloaded `{UuidGen} (d : document) (w : world) (e : error) :
  let '(r, (d', w')) := Hardened.save (d, w) in
  r = inr e ->
  isDownloaded d' w' = false \/
  (exists pa, last (w_log w') = Some (Called (DbUpdate (uuid d) pa) false)) \/
  last (w_log w') = Some (Called (DeleteFile (filePath d)) false).
Proof.
  destruct d, w as [db fs rem seed orc log].
  unfold Hardened.save, Hardened.save_try, Hardened.save_catch, Hardened.setState,
    Hardened.populateMetadata, Hardened.remove.
  run.
  all: intros Hr; try discriminate.
  all: first [ left; unfold isDownloaded, existsSync; cbn; rewrite lookup_delete_eq; reflexivity
             | right; cbn; rewrite last_snoc;
               first [left; eexists; reflexivity | right; reflexivity] ].
Qed.

Lemma save_failure_not_downloaded_witness :
  let '(r, (d', w')) := Hardened.save (H:=counter_uuid) (doc1, set_oracle [Ok; Ok; Ok; Fail boom] (world0 [])) in
  r = inr boom /\ isDownloaded d' w' = false.
Proof.
  pose proof (save_failure_not_downloaded (H:=counter_uuid) doc1
                (set_oracle [Ok; Ok; Ok; Fail boom] (world0 [])) boom) as Hc.
  destruct (Hardened.save _) as [r [d' w']] eqn:E.
  assert (Hr : r = inr boom) by (vm_compute in E; injection E; intros; subst; reflexivity).
  split; [exact Hr |].
  destruct (Hc Hr) as [Hd | [[pa Hl] | Hl]]; [exact Hd | |];
    exfalso; vm_compute in E; injection E; intros; subst; vm_compute in Hl; discriminate.
Defined.

(** [remove()] of the later version draws exactly one key, also when
    the store update or the deletion fails; the draw comes before any
    call: the first call of the run is the store update, and it carries
    the key just drawn. *)
Theorem remove_draws_one_key `{UuidGen} (d : document) (w : world) :
  let '(_, (_, w')) := Hardened.remove (d, w) in
  w_seed w' = S (w_seed w) /\
  exists b l, w_log w' =
    (w_log w ++ Called (DbUpdate (uuid d) (mkPatch removed (Some (uuid_gen (w_seed w))))) b :: l)%list.
Proof.
  destruct w as [db fs rem seed orc log].
  unfold Hardened.remove. run.
  all: split; [reflexivity |].
  all: do 2 eexists; rewrite <- ?app_assoc; reflexivity.
Qed.

Lemma setState_then_load_witness :
  let '(r1, (d1, w1)) := Hardened.setState (H:=counter_uuid) removed (doc1, world1) in
  let '(r2, (e2, _)) := Hardened.load (new_document "doc-1" "wg-2" alice, w1) in
  r1 = inl tt /\ r2 = inl tt /\ state e2 = Some removed /\ key e2 = Some "key-7".
Proof.
  pose proof (setState_then_load (H:=counter_uuid) removed doc1 world1 "wg-2" alice) as Hc.
  destruct (Hardened.setState _ _) as [r1 [d1 w1]] eqn:E1.
  assert (Hr1 : r1 = inl tt) by (vm_compute in E1; congruence).
  assert (Hw1 : w1 = snd (snd (Hardened.setState (H:=counter_uuid) removed (doc1, world1))))
    by (rewrite E1; reflexivity).
  change (uuid doc1) with "doc-1" in Hc.
  destruct (Hardened.load _) as [r2 [e2 w2]] eqn:E2.
  assert (Hr2 : r2 = inl tt) by (subst w1; vm_compute in E2; congruence).
  destruct (Hc Hr1 Hr2) as [Hs Hk].
  split; [exact Hr1 | split; [exact Hr2 | split; [exact Hs | exact Hk]]].
Defined.

Lemma remove_then_load_witness :
  let '(r1, (_, w1)) := Hardened.remove (H:=counter_uuid) (doc1, world1) in
  let '(r2, (e2, _)) := Hardened.load (new_document "doc-1" "wg-2" alice, w1) in
  r1 = inl tt /\ r2 = inl tt /\ state e2 = Some removed /\ key e2 = Some "key-0".
Proof.
  pose proof (remove_then_load (H:=counter_uuid) doc1 world1 "wg-2" alice) as Hc.
  destruct (Hardened.remove _) as [r1 [d1 w1]] eqn:E1.
  assert (Hr1 : r1 = inl tt) by (vm_compute in E1; congruence).
  assert (Hw1 : w1 = snd (snd (Hardened.remove (H:=counter_uuid) (doc1, world1))))
    by (rewrite E1; reflexivity).
  change (uuid doc1) with "doc-1" in Hc.
  destruct (Hardened.load _) as [r2 [e2 w2]] eqn:E2.
  assert (Hr2 : r2 = inl tt) by (subst w1; vm_compute in E2; congruence).
  destruct (Hc Hr1 Hr2) as [Hs Hk].
  split; [exact Hr1 | split; [exact Hr2 | split; [exact Hs | exact Hk]]].
Defined.

